(** * Cave Explorer front end: the API client and the call-state hook

    A shallow embedding of the two JavaScript modules that carry the
    front end's logic,

    - [utils/api.js]: the axios instance [api], its request and response
      interceptors, and the six operations of [gameAPI];
    - [hooks/useGameApi.js]: the hook [useGameApi] with its wrapper
      [apiCall], [clearError] and the six bindings,

    and of the two components [App.jsx] and [components/ErrorBoundary.jsx],
    followed by the properties of the specification and further
    properties of the code, stated over that embedding. *)

From Stdlib Require Import String Ascii ZArith List Bool Lia.
From Stdlib Require Import DecimalString.
Import ListNotations.

Local Open Scope string_scope.
Local Open Scope Z_scope.

Set Warnings "-register-all".

(** ** JavaScript values *)

Module JS.

(** Numbers: the integers and NaN.  The program compares a number with
    [404] and [500], tests it for truthiness and prints it in a template
    literal. *)
Inductive number : Type :=
| NaN
| Num (z : Z).

(** Plain data: primitives and objects with own data properties, in
    the order they were written. *)
Inductive value : Type :=
| VUndefined
| VNull
| VBool (b : bool)
| VNumber (n : number)
| VString (s : string)
| VObject (fields : list (string * value)).

Definition is_nullish (v : value) : bool :=
  match v with
  | VUndefined | VNull => true
  | _ => false
  end.

(** [ToBoolean]: what [if (v)] and [v || w] test. *)
Definition ToBoolean (v : value) : bool :=
  match v with
  | VUndefined | VNull => false
  | VBool b => b
  | VNumber NaN => false
  | VNumber (Num z) => negb (z =? 0)
  | VString s => negb (s =? "")%string
  | VObject _ => true
  end.

(** [a || b] *)
Definition logical_or (a b : value) : value :=
  if ToBoolean a then a else b.

(** A parameter with a default, [(p = d) => ...]: the default is taken
    when the argument is [undefined], which is also what an omitted
    argument is. *)
Definition default_parameter (v d : value) : value :=
  match v with
  | VUndefined => d
  | _ => v
  end.

(** The [i]-th argument of a call. *)
Definition argument (args : list value) (i : nat) : value :=
  nth i args VUndefined.

Fixpoint own_property (fields : list (string * value)) (p : string)
  : option value :=
  match fields with
  | [] => None
  | (k, v) :: rest =>
      if (k =? p)%string then Some v else own_property rest p
  end.

(** [o.p] for [o] neither [null] nor [undefined].  The properties the
    program reads ([error], [message], [response], [status], [code],
    [data]) are defined on no primitive's prototype, so a primitive
    yields [undefined]. *)
Definition property (o : value) (p : string) : value :=
  match o with
  | VObject fields =>
      match own_property fields p with
      | Some v => v
      | None => VUndefined
      end
  | _ => VUndefined
  end.

(** [v === 'literal'] *)
Definition strict_equal_string (v : value) (s : string) : bool :=
  match v with
  | VString t => (t =? s)%string
  | _ => false
  end.

(** [v === literal] for a number literal *)
Definition strict_equal_number (v : value) (n : Z) : bool :=
  match v with
  | VNumber (Num z) => z =? n
  | _ => false
  end.

(** The decimal digits of an integer, with its sign. *)
Definition string_of_Z (z : Z) : string :=
  NilZero.string_of_int (Z.to_int z).

(** [Number.MAX_SAFE_INTEGER]: up to it every integer is a number of
    its own and prints as its decimal digits. *)
Definition MAX_SAFE_INTEGER : Z := 9007199254740991.

Definition has_own_property (fields : list (string * value)) (p : string)
  : bool :=
  match own_property fields p with
  | Some _ => true
  | None => false
  end.

(** What differs between engines or follows the floating-point form of
    a number, and is left open: the conversion of a string to a number;
    the printing of a number beyond the safe integers; the wording of
    the [TypeError] raised when a property of [null] or [undefined] is
    read ([TypeError_message e v p] for the expression [e], of value [v],
    and the property [p]); and the wording of the one raised when an
    object cannot be converted to a primitive. *)
Class Runtime : Type := {
  StringToNumber : string -> number;
  NumberToString : Z -> string;
  TypeError_message : string -> value -> string -> string;
  ToPrimitive_message : value -> string
}.

Section WithRuntime.
Context {rt : Runtime}.

(** [ToString], as a template literal applies it; [None] when the
    conversion throws.  An object is converted by its [toString] method:
    the inherited one gives "[object Object]"; an own property of that
    name holds data, which cannot be called, and the inherited [valueOf]
    returns the object itself, so the conversion throws. *)
Definition ToString (v : value) : option string :=
  match v with
  | VUndefined => Some "undefined"
  | VNull => Some "null"
  | VBool true => Some "true"
  | VBool false => Some "false"
  | VNumber NaN => Some "NaN"
  | VNumber (Num z) =>
      Some (if Z.abs z <=? MAX_SAFE_INTEGER
            then string_of_Z z
            else NumberToString z)
  | VString s => Some s
  | VObject fields =>
      if has_own_property fields "toString" then None
      else Some "[object Object]"
  end.

(** [ToNumber]; [None] when the conversion throws.  An object goes
    through [valueOf], which gives no primitive, and then through its
    string form. *)
Definition ToNumber (v : value) : option number :=
  match v with
  | VUndefined => Some NaN
  | VNull => Some (Num 0)
  | VBool true => Some (Num 1)
  | VBool false => Some (Num 0)
  | VNumber n => Some n
  | VString s => Some (StringToNumber s)
  | VObject fields =>
      if has_own_property fields "toString" then None
      else Some (StringToNumber "[object Object]")
  end.

(** [v >= literal] for a number literal; [None] when converting [v]
    throws. *)
Definition greater_equal (v : value) (n : Z) : option bool :=
  match ToNumber v with
  | None => None
  | Some NaN => Some false
  | Some (Num z) => Some (n <=? z)
  end.

(** [new Error(message)] and the engine's [TypeError]s. *)
Definition Error (message : string) : value :=
  VObject [("name", VString "Error"); ("message", VString message)].

Definition TypeError (e : string) (v : value) (p : string) : value :=
  VObject [("name", VString "TypeError");
           ("message", VString (TypeError_message e v p))].

Definition ToPrimitive_TypeError (v : value) : value :=
  VObject [("name", VString "TypeError");
           ("message", VString (ToPrimitive_message v))].

End WithRuntime.

End JS.

Import JS.

(** ** The world the program runs in, and its computations *)

(** An HTTP request as [api.get], [api.post] and [api.delete] pass it to
    the axios instance. *)
Inductive http_method : Type := GET | POST | DELETE.

Record request : Type := {
  method : http_method;
  url : string;
  data : value
}.

(** A line on the console. *)
Inductive console_level : Type := log | error_level.

Record console_entry : Type := {
  level : console_level;
  label : string;
  payload : value
}.

(** How the transport settles a request: with a response, or with a
    failure. *)
Inductive outcome : Type :=
| Resolved (response : value)
| Rejected (reason : value).

(** What the build and the network provide: the two [import.meta.env]
    variables the program reads, and the remote end, which answers a
    request knowing the requests sent before it. *)
Class Environment : Type := {
  VITE_API_URL : value;
  VITE_ENABLE_LOGGING : value;
  transport : list request -> request -> outcome
}.

(** The state: the hook's two [useState] cells, the console, and the
    requests handed to the transport so far. *)
Record world : Type := {
  loading : bool;
  error : value;
  console : list console_entry;
  sent : list request
}.

(** A computation ends normally with a result or abruptly with a thrown
    value; the state it leaves is kept in both cases.  An [async]
    function is a computation: [await] runs it to its end. *)
Inductive completion (A : Type) : Type :=
| Normal (a : A)
| Throw (e : value).
Arguments Normal {A} a.
Arguments Throw {A} e.

Definition M (A : Type) : Type := world -> completion A * world.

Definition ret {A} (a : A) : M A := fun w => (Normal a, w).

Definition throw {A} (e : value) : M A := fun w => (Throw e, w).

(** [p.then(onFulfilled, onRejected)] *)
Definition promise_then {A B} (p : M A)
    (onFulfilled : A -> M B) (onRejected : value -> M B) : M B :=
  fun w =>
    match p w with
    | (Normal a, w1) => onFulfilled a w1
    | (Throw e, w1) => onRejected e w1
    end.

Definition bind {A B} (m : M A) (k : A -> M B) : M B :=
  promise_then m k throw.

(** [try { body } catch (err) { handler }] *)
Definition try_catch {A} (body : M A) (handler : value -> M A) : M A :=
  promise_then body ret handler.

(** [try { ... } finally { cleanup }]: the cleanup runs in both cases
    and the completion of the block is kept, unless the cleanup itself
    throws. *)
Definition try_finally {A} (body : M A) (cleanup : M unit) : M A :=
  fun w =>
    let (c, w1) := body w in
    match cleanup w1 with
    | (Normal _, w2) => (c, w2)
    | (Throw e, w2) => (Throw e, w2)
    end.

Declare Scope js_scope.
Delimit Scope js_scope with js.
Notation "x <- m ;; k" := (bind m (fun x => k))
  (at level 100, m at next level, right associativity) : js_scope.
Notation "m ;; k" := (bind m (fun _ => k))
  (at level 100, right associativity) : js_scope.
Local Open Scope js_scope.

Definition console_log (l : string) (v : value) : M unit :=
  fun w =>
    (Normal tt,
     {| loading := loading w; error := error w;
        console := console w ++ [{| level := log; label := l; payload := v |}];
        sent := sent w |}).

Definition console_error (l : string) (v : value) : M unit :=
  fun w =>
    (Normal tt,
     {| loading := loading w; error := error w;
        console :=
          console w ++ [{| level := error_level; label := l; payload := v |}];
        sent := sent w |}).

Definition setLoading (b : bool) : M unit :=
  fun w =>
    (Normal tt,
     {| loading := b; error := error w;
        console := console w; sent := sent w |}).

Definition setError (v : value) : M unit :=
  fun w =>
    (Normal tt,
     {| loading := loading w; error := v;
        console := console w; sent := sent w |}).

Section Member.
Context {rt : Runtime}.

(** [e.p], where the expression [e] has the value [o]. *)
Definition member (e : string) (o : value) (p : string) : M value :=
  if is_nullish o then throw (TypeError e o p) else ret (property o p).

(** [e?.p] *)
Definition optional_member (o : value) (p : string) : M value :=
  if is_nullish o then ret VUndefined else ret (property o p).

(** [`prefix${v}`] *)
Definition template (prefix : string) (v : value) : M string :=
  match ToString v with
  | Some text => ret (prefix ++ text)
  | None => throw (ToPrimitive_TypeError v)
  end.

(** [v >= literal] *)
Definition compare_greater_equal (v : value) (n : Z) : M bool :=
  match greater_equal v n with
  | Some b => ret b
  | None => throw (ToPrimitive_TypeError v)
  end.

End Member.

(** ** [utils/api.js] *)

Section Api.
Context {rt : Runtime} {env : Environment}.

(** [const API_BASE_URL = import.meta.env.VITE_API_URL || 'http://localhost:8000'] *)
Definition API_BASE_URL : value :=
  logical_or VITE_API_URL (VString "http://localhost:8000").

(** The defaults given to [axios.create]. *)
Definition timeout : Z := 10000.

Definition headers : value :=
  VObject [("Content-Type", VString "application/json")].

Definition method_name (m : http_method) : string :=
  match m with
  | GET => "get"
  | POST => "post"
  | DELETE => "delete"
  end.

(** The [config] object an interceptor sees: the request merged with
    the defaults of the instance. *)
Definition config (r : request) : value :=
  VObject [("url", VString (url r));
           ("method", VString (method_name (method r)));
           ("data", data r);
           ("baseURL", API_BASE_URL);
           ("timeout", VNumber (Num timeout));
           ("headers", headers)].

(** [import.meta.env.VITE_ENABLE_LOGGING === 'true'] *)
Definition logging_enabled : bool :=
  strict_equal_string VITE_ENABLE_LOGGING "true".

(** The request interceptor. *)
Definition request_onFulfilled (r : request) : M request :=
  (if logging_enabled
   then console_log "API Request:" (config r)
   else ret tt) ;;
  ret r.

Definition request_onRejected (error : value) : M request :=
  console_error "API Request Error:" error ;;
  throw error.

(** The response interceptor. *)
Definition response_onFulfilled (response : value) : M value :=
  (if logging_enabled
   then console_log "API Response:" response
   else ret tt) ;;
  ret response.

(** [error.response?.status] *)
Definition response_status (error : value) : M value :=
  response <- member "error" error "response" ;;
  optional_member response "status".

Definition response_onRejected (error : value) : M value :=
  console_error "API Response Error:" error ;;
  status <- response_status error ;;
  if strict_equal_number status 404 then
    throw (Error "Game session not found")
  else
    status <- response_status error ;;
    server_error <- compare_greater_equal status 500 ;;
    if server_error then
      throw (Error "Server error - please try again later")
    else
      code <- member "error" error "code" ;;
      if strict_equal_string code "ECONNABORTED" then
        throw (Error "Request timeout - please check your connection")
      else
        throw error.

(** The transport: the request is handed over and settles as the
    remote end decides. *)
Definition dispatchRequest (r : request) : M value :=
  fun w =>
    let w1 := {| loading := loading w; error := error w;
                 console := console w; sent := sent w ++ [r] |} in
    match transport (sent w) r with
    | Resolved response => (Normal response, w1)
    | Rejected reason => (Throw reason, w1)
    end.

(** A request on the instance [api]: axios chains the request
    interceptor, the transport and the response interceptor with
    [then]. *)
Definition api_request (r : request) : M value :=
  promise_then
    (promise_then
       (promise_then (ret r) request_onFulfilled request_onRejected)
       dispatchRequest
       throw)
    response_onFulfilled
    response_onRejected.

Definition api_get (u : string) : M value :=
  api_request {| method := GET; url := u; data := VUndefined |}.

Definition api_post (u : string) (d : value) : M value :=
  api_request {| method := POST; url := u; data := d |}.

Definition api_delete (u : string) : M value :=
  api_request {| method := DELETE; url := u; data := VUndefined |}.

(** The six operations of [gameAPI]; each takes the list of its
    arguments. *)
Definition startGame (args : list value) : M value :=
  let playerName := argument args 0 in
  let clientSeed := default_parameter (argument args 1) VNull in
  response <- api_post "/start_game"
                (VObject [("player_name", playerName);
                          ("seed", clientSeed)]) ;;
  member "response" response "data".

Definition takeTurn (args : list value) : M value :=
  let sessionId := argument args 0 in
  let playerName := argument args 1 in
  let pathId := argument args 2 in
  let insurance := default_parameter (argument args 3) (VBool false) in
  response <- api_post "/take_turn"
                (VObject [("session_id", sessionId);
                          ("player_name", playerName);
                          ("chosen_path_id", pathId);
                          ("insurance", insurance)]) ;;
  member "response" response "data".

Definition getGameState (args : list value) : M value :=
  let sessionId := argument args 0 in
  path <- template "/game_state/" sessionId ;;
  response <- api_get path ;;
  member "response" response "data".

Definition revealProvenance (args : list value) : M value :=
  let sessionId := argument args 0 in
  path <- template "/reveal_game/" sessionId ;;
  response <- api_get path ;;
  member "response" response "data".

Definition endSession (args : list value) : M value :=
  let sessionId := argument args 0 in
  path <- template "/session/" sessionId ;;
  response <- api_delete path ;;
  member "response" response "data".

Definition healthCheck (args : list value) : M value :=
  response <- api_get "/health" ;;
  member "response" response "data".

Inductive operation : Type :=
| StartGame | TakeTurn | GetGameState | RevealProvenance | EndSession
| HealthCheck.

Definition gameAPI (op : operation) : list value -> M value :=
  match op with
  | StartGame => startGame
  | TakeTurn => takeTurn
  | GetGameState => getGameState
  | RevealProvenance => revealProvenance
  | EndSession => endSession
  | HealthCheck => healthCheck
  end.

End Api.

(** ** [hooks/useGameApi.js] *)

Section Hook.
Context {rt : Runtime} {env : Environment}.

Definition apiCall (apiFunction : list value -> M value)
    (args : list value) : M value :=
  setLoading true ;;
  setError (VString "") ;;
  try_finally
    (try_catch
       (result <- apiFunction args ;;
        result_error <- member "result" result "error" ;;
        if ToBoolean result_error then
          setError result_error ;;
          ret VNull
        else
          ret result)
       (fun err =>
          err_message <- member "err" err "message" ;;
          let errorMessage :=
            logical_or err_message (VString "An unexpected error occurred") in
          setError errorMessage ;;
          ret VNull))
    (setLoading false).

Definition clearError : M unit := setError (VString "").

(** The six bindings the hook returns: each passes its own parameters
    on, so an argument the caller leaves out arrives as [undefined] and
    one in excess is dropped. *)
Definition useGameApi (op : operation) (args : list value) : M value :=
  match op with
  | StartGame =>
      apiCall (gameAPI StartGame) [argument args 0; argument args 1]
  | TakeTurn =>
      apiCall (gameAPI TakeTurn)
        [argument args 0; argument args 1; argument args 2; argument args 3]
  | GetGameState => apiCall (gameAPI GetGameState) [argument args 0]
  | RevealProvenance => apiCall (gameAPI RevealProvenance) [argument args 0]
  | EndSession => apiCall (gameAPI EndSession) [argument args 0]
  | HealthCheck => apiCall (gameAPI HealthCheck) []
  end.

End Hook.

(** ** What an operation sends, and the states it passes through *)

Section Requests.
Context {rt : Runtime} {env : Environment}.

(** The request an operation of [gameAPI] builds from its arguments;
    none when printing the session id in the path throws. *)
Definition request_of (op : operation) (args : list value)
  : option request :=
  match op with
  | StartGame =>
      Some {| method := POST; url := "/start_game";
              data := VObject [("player_name", argument args 0);
                               ("seed",
                                default_parameter (argument args 1) VNull)] |}
  | TakeTurn =>
      Some {| method := POST; url := "/take_turn";
              data := VObject [("session_id", argument args 0);
                               ("player_name", argument args 1);
                               ("chosen_path_id", argument args 2);
                               ("insurance",
                                default_parameter (argument args 3)
                                  (VBool false))] |}
  | GetGameState =>
      match ToString (argument args 0) with
      | Some text =>
          Some {| method := GET; url := "/game_state/" ++ text;
                  data := VUndefined |}
      | None => None
      end
  | RevealProvenance =>
      match ToString (argument args 0) with
      | Some text =>
          Some {| method := GET; url := "/reveal_game/" ++ text;
                  data := VUndefined |}
      | None => None
      end
  | EndSession =>
      match ToString (argument args 0) with
      | Some text =>
          Some {| method := DELETE; url := "/session/" ++ text;
                  data := VUndefined |}
      | None => None
      end
  | HealthCheck =>
      Some {| method := GET; url := "/health"; data := VUndefined |}
  end.

(** The requests an operation hands to the transport: its request, if
    it could build it. *)
Definition requests_of (op : operation) (args : list value)
  : list request :=
  match request_of op args with
  | Some r => [r]
  | None => []
  end.

(** The arguments a binding of the hook passes on. *)
Definition passed_on (op : operation) (args : list value) : list value :=
  match op with
  | StartGame => [argument args 0; argument args 1]
  | TakeTurn =>
      [argument args 0; argument args 1; argument args 2; argument args 3]
  | GetGameState | RevealProvenance | EndSession => [argument args 0]
  | HealthCheck => []
  end.

(** [error.response?.status] and the value the response interceptor
    throws for a failure, as pure functions. *)
Definition status_of (error : value) : value :=
  let response := property error "response" in
  if is_nullish response then VUndefined else property response "status".

Definition rethrown (error : value) : value :=
  if is_nullish error then TypeError "error" error "response"
  else if strict_equal_number (status_of error) 404 then
    Error "Game session not found"
  else
    match greater_equal (status_of error) 500 with
    | None => ToPrimitive_TypeError (status_of error)
    | Some true => Error "Server error - please try again later"
    | Some false =>
        if strict_equal_string (property error "code") "ECONNABORTED" then
          Error "Request timeout - please check your connection"
        else error
    end.

(** The state in which [apiCall] starts the awaited call, and the one it
    leaves. *)
Definition started (w : world) : world :=
  {| loading := true; error := VString "";
     console := console w; sent := sent w |}.

Definition settled (e : value) (w : world) : world :=
  {| loading := false; error := e; console := console w; sent := sent w |}.

(** The console lines of one request. *)
Definition request_line (r : request) : list console_entry :=
  if logging_enabled
  then [{| level := log; label := "API Request:"; payload := config r |}]
  else [].

Definition response_line (o : outcome) : list console_entry :=
  match o with
  | Resolved response =>
      if logging_enabled
      then [{| level := log; label := "API Response:"; payload := response |}]
      else []
  | Rejected reason =>
      [{| level := error_level; label := "API Response Error:";
          payload := reason |}]
  end.

(** The state after a request [r] settled with [o]. *)
Definition after_request (r : request) (o : outcome) (w : world) : world :=
  {| loading := loading w; error := error w;
     console := console w ++ request_line r ++ response_line o;
     sent := sent w ++ [r] |}.

(** The message [apiCall] shows for a caught failure. *)
Definition shown_message (err : value) : value :=
  logical_or (property err "message")
    (VString "An unexpected error occurred").

End Requests.

(** ** Sample surroundings

    An engine, the failures axios reports, and scripted remote ends,
    for running the code on examples. *)

(** The double nearest to a natural number: 53 significant bits, ties
    to even. *)
Definition nearest_double (x : Z) : Z :=
  if x <? 2 ^ 53 then x
  else
    let ulp := 2 ^ (Z.log2 x - 52) in
    let q := x / ulp in
    let r := x mod ulp in
    if 2 * r <? ulp then q * ulp
    else if ulp <? 2 * r then (q + 1) * ulp
    else if Z.even q then q * ulp
    else (q + 1) * ulp.

(** The fewest digits [s], [k] of them, with [s * 10 ^ (n - k)] still
    read back as the double [x] of [n] digits. *)
Fixpoint shortest_digits (fuel : nat) (k n x : Z) : Z * Z * Z :=
  match fuel with
  | O => (x, n, n)
  | S fuel' =>
      let p := 10 ^ (n - k) in
      let lo := x / p in
      let hi := lo + 1 in
      let ok_lo := nearest_double (lo * p) =? x in
      let ok_hi := nearest_double (hi * p) =? x in
      let closer_lo :=
        (x - lo * p <? hi * p - x)
        || ((x - lo * p =? hi * p - x) && Z.even lo) in
      if ok_lo && (negb ok_hi || closer_lo) then (lo, k, n)
      else if ok_hi then
        if hi =? 10 ^ k then (1, 1, n + 1) else (hi, k, n)
      else shortest_digits fuel' (k + 1) n x
  end.

Fixpoint zeros (n : nat) : string :=
  match n with
  | O => ""
  | S n' => "0" ++ zeros n'
  end.

(** [Number.prototype.toString] on a natural number: the shortest
    digits, padded with zeros below 10^21, in exponent form from there
    on. *)
Definition print_natural (x : Z) : string :=
  let y := nearest_double x in
  let n := Z.of_nat (String.length (string_of_Z y)) in
  let '(s, k, n) := shortest_digits (Z.to_nat n) 1 n y in
  let digits := string_of_Z s in
  if n <=? 21 then digits ++ zeros (Z.to_nat (n - k))
  else
    match digits with
    | String d rest =>
        String d (if (rest =? "")%string then "" else "." ++ rest)
          ++ "e+" ++ string_of_Z (n - 1)
    | EmptyString => ""
    end.

Definition print_integer (z : Z) : string :=
  if z <? 0 then "-" ++ print_natural (- z) else print_natural z.

(** V8's wording of the [TypeError]s.  The conversion of strings reads
    unsigned decimal integers only, which is all the examples meet; every
    other string is taken to NaN. *)
Definition V8 : Runtime :=
  {| StringToNumber := fun s =>
       match NilEmpty.uint_of_string s with
       | Some u => Num (Z.of_uint u)
       | None => NaN
       end;
     NumberToString := print_integer;
     TypeError_message := fun _ v p =>
       "Cannot read properties of "
         ++ match v with VNull => "null" | _ => "undefined" end
         ++ " (reading '" ++ p ++ "')";
     ToPrimitive_message := fun _ =>
       "Cannot convert object to primitive value" |}.

(** The response object of axios, and the error it rejects with. *)
Definition http_response (status : Z) (body : value) : value :=
  VObject [("data", body); ("status", VNumber (Num status))].

Definition AxiosError (message code : string) (response : value) : value :=
  VObject [("name", VString "AxiosError"); ("message", VString message);
           ("code", VString code); ("response", response)].

(** A response outside 2xx. *)
Definition bad_status (status : Z) (body : value) : value :=
  AxiosError ("Request failed with status code " ++ string_of_Z status)
    (if status <? 500 then "ERR_BAD_REQUEST" else "ERR_BAD_RESPONSE")
    (http_response status body).

(** The deadline of the instance passed without a response. *)
Definition deadline_exceeded : value :=
  AxiosError ("timeout of " ++ string_of_Z timeout ++ "ms exceeded")
    "ECONNABORTED" VUndefined.

(** The remote end could not be reached. *)
Definition network_error : value :=
  AxiosError "Network Error" "ERR_NETWORK" VUndefined.

(** A remote end that settles every request the same way. *)
Definition scripted (logging : value) (o : outcome) : Environment :=
  {| VITE_API_URL := VUndefined;
     VITE_ENABLE_LOGGING := logging;
     transport := fun _ _ => o |}.

(** The hook before its first call. *)
Definition idle : world :=
  {| loading := false; error := VString ""; console := []; sent := [] |}.

(** Remote ends for the scenarios below: a session that is unknown, a
    server that fails, one that does not answer in time, one that cannot
    be reached; then a server that starts a game, one that refuses a
    move, and one that answers with the JSON text [null]. *)
Definition session_unknown : Environment :=
  scripted VUndefined
    (Rejected (bad_status 404 (VObject [("detail", VString "Not Found")]))).

Definition server_failing : Environment :=
  scripted VUndefined (Rejected (bad_status 503 (VString ""))).

Definition server_silent : Environment :=
  scripted VUndefined (Rejected deadline_exceeded).

Definition server_unreachable : Environment :=
  scripted VUndefined (Rejected network_error).

Definition server_unreachable_logged : Environment :=
  scripted (VString "true") (Rejected network_error).

Definition game_started : value :=
  VObject [("session_id", VString "abc123"); ("depth", VNumber (Num 0))].

Definition server_starting : Environment :=
  scripted VUndefined (Resolved (http_response 200 game_started)).

Definition server_starting_logged : Environment :=
  scripted (VString "true") (Resolved (http_response 200 game_started)).

Definition server_refusing : Environment :=
  scripted VUndefined
    (Resolved (http_response 200
                 (VObject [("error", VString "invalid path")]))).

Definition server_null_body : Environment :=
  scripted VUndefined (Resolved (http_response 200 VNull)).

(** ** [App.jsx] *)

Module App.

(** What [fetch] settles with: a response, of which the component uses
    nothing but [json()], or a failure.  [json] is how [response.json()]
    settles; [status] is the HTTP status, which travels with the
    response. *)
Record response : Type := {
  status : Z;
  json : outcome
}.

Inductive fetched : Type :=
| Fulfilled (r : response)
| Failed (reason : value).

Class Network : Type := {
  fetch : string -> fetched
}.

(** The component's [useState] cell. *)
Record state : Type := {
  message : string
}.

(** What [render] shows besides the fixed markup: the box with the
    message, or no box. *)
Inductive view : Type :=
| Page (box : option string).

Section WithNetwork.
Context {rt : Runtime} {net : Network}.

(** The [try] block of [testAPI], up to the text given to
    [setMessage]. *)
Definition connected : completion string :=
  match fetch "http://localhost:8000/health" with
  | Failed reason => Throw reason
  | Fulfilled response =>
      match json response with
      | Rejected reason => Throw reason
      | Resolved data =>
          if is_nullish data then Throw (TypeError "data" data "status")
          else
            match ToString (property data "status") with
            | Some text => Normal ("API Connected: " ++ text)
            | None => Throw (ToPrimitive_TypeError (property data "status"))
            end
      end
  end.

Definition testAPI (s : state) : completion unit * state :=
  match connected with
  | Normal text => (Normal tt, {| message := text |})
  | Throw error =>
      if is_nullish error then
        (Throw (TypeError "error" error "message"), s)
      else
        match ToString (property error "message") with
        | Some text => (Normal tt, {| message := "API Error: " ++ text |})
        | None => (Throw (ToPrimitive_TypeError (property error "message")), s)
        end
  end.

End WithNetwork.

(** [useState('')] *)
Definition initial : state := {| message := "" |}.

(** [{message && (<div>{message}</div>)}] *)
Definition render (s : state) : view :=
  Page (if (message s =? "")%string then None else Some (message s)).

End App.

(** ** [components/ErrorBoundary.jsx] *)

Module ErrorBoundary.

(** The build mode, and the [toString] method of a thrown value. *)
Class Build : Type := {
  DEV : bool;
  toString : value -> string
}.

Record state : Type := {
  hasError : bool;
  error : value
}.

(** A call of [console.error] with its arguments. *)
Record console_line : Type := {
  text : string;
  arguments : list value
}.

(** What [render] returns: the children, or the fallback page, whose
    details element, when there is one, holds the text of the error or
    nothing. *)
Inductive view : Type :=
| Children
| Fallback (details : option (option string)).

(** The state set by the constructor. *)
Definition constructor : state := {| hasError := false; error := VNull |}.

Definition getDerivedStateFromError (error : value) : state :=
  {| hasError := true; error := error |}.

(** [componentDidCatch]; its test of [import.meta.env.PROD] guards an
    empty block. *)
Definition componentDidCatch (error errorInfo : value)
    (console : list console_line) : list console_line :=
  (console ++ [{| text := "Cave Explorer Error:";
                  arguments := [error; errorInfo] |}])%list.

Section WithBuild.
Context {build : Build}.

(** [this.state.error?.toString()] *)
Definition error_text (s : state) : option string :=
  if is_nullish (error s) then None else Some (toString (error s)).

Definition render (s : state) : view :=
  if hasError s then
    Fallback (if DEV then Some (error_text s) else None)
  else
    Children.

End WithBuild.

(** The component with the console it writes on, and what React does
    when a descendant throws [thrown] with the component stack [info]:
    the state returned by [getDerivedStateFromError] is merged into the
    component's, then [componentDidCatch] is called. *)
Record mounted : Type := {
  current : state;
  console : list console_line
}.

Definition fresh : mounted := {| current := constructor; console := [] |}.

Definition catches (c : mounted) (failure : value * value) : mounted :=
  {| current := getDerivedStateFromError (fst failure);
     console := componentDidCatch (fst failure) (snd failure) (console c) |}.

Definition after_failures (failures : list (value * value)) : mounted :=
  fold_left catches failures fresh.

End ErrorBoundary.

(** More remote ends: logging set to the boolean [true] instead of the
    string, a transport that fails with [null], a function that rejects
    with [undefined]; and for [App], a server that answers 500 with a
    JSON body, one that is healthy, and none at all. *)
Definition server_starting_flag_boolean : Environment :=
  scripted (VBool true) (Resolved (http_response 200 game_started)).

Definition transport_failing_null : Environment :=
  scripted VUndefined (Rejected VNull).

Definition rejecting_undefined (args : list value) : M value :=
  throw VUndefined.

(** An object that cannot be printed: its [toString] is data. *)
Definition unprintable : value :=
  VObject [("toString", VNumber (Num 1))].

Definition backend_unprintable : App.Network :=
  {| App.fetch := fun _ =>
       App.Fulfilled
         {| App.status := 200;
            App.json := Resolved (VObject [("status", unprintable)]) |} |}.

Definition backend_failing : App.Network :=
  {| App.fetch := fun _ =>
       App.Fulfilled
         {| App.status := 500;
            App.json :=
              Resolved (VObject [("detail",
                                  VString "Internal Server Error")]) |} |}.

Definition backend_healthy : App.Network :=
  {| App.fetch := fun _ =>
       App.Fulfilled
         {| App.status := 200;
            App.json :=
              Resolved (VObject [("status", VString "healthy")]) |} |}.

Definition backend_down : App.Network :=
  {| App.fetch := fun _ =>
       App.Failed
         (VObject [("name", VString "TypeError");
                   ("message", VString "Failed to fetch")]) |}.

(** ** Running the code *)

Section Runs.
Context {rt : Runtime} {env : Environment}.

Lemma rethrown_not_nullish (error : value) :
  is_nullish (rethrown error) = false.
Proof.
  unfold rethrown.
  destruct (is_nullish error) eqn:Hn; [reflexivity|].
  destruct (strict_equal_number _ _); [reflexivity|].
  destruct (greater_equal _ _) as [[|]|]; [reflexivity| |reflexivity].
  destruct (strict_equal_string _ _); [reflexivity|assumption].
Qed.

Lemma shown_message_truthy (err : value) :
  ToBoolean (shown_message err) = true.
Proof.
  unfold shown_message, logical_or.
  destruct (ToBoolean (property err "message")) eqn:Hm; [exact Hm|reflexivity].
Qed.

(** The response interceptor's failure branch logs the failure and
    throws [rethrown]. *)
Lemma response_onRejected_run (error0 : value) (w : world) :
  response_onRejected error0 w =
  (Throw (rethrown error0),
   {| loading := loading w; error := error w;
      console := console w ++ response_line (Rejected error0);
      sent := sent w |}).
Proof.
  unfold response_onRejected, rethrown, status_of, response_status, member,
    optional_member, compare_greater_equal, bind, promise_then,
    console_error, throw, ret.
  cbn [response_line loading error console sent].
  destruct (is_nullish error0) eqn:Hn; [reflexivity|].
  destruct (is_nullish (property error0 "response")) eqn:Hr;
    cbn [strict_equal_number].
  - destruct (greater_equal VUndefined 500) as [[|]|];
      [reflexivity| |reflexivity].
    destruct (strict_equal_string (property error0 "code") "ECONNABORTED");
      reflexivity.
  - destruct (strict_equal_number (property (property error0 "response")
                                     "status") 404); [reflexivity|].
    destruct (greater_equal (property (property error0 "response") "status")
                500) as [[|]|]; [reflexivity| |reflexivity].
    destruct (strict_equal_string (property error0 "code") "ECONNABORTED");
      reflexivity.
Qed.

(** One request on [api]. *)
Lemma api_request_run (r : request) (w : world) :
  api_request r w =
  match transport (sent w) r with
  | Resolved response =>
      (Normal response, after_request r (Resolved response) w)
  | Rejected reason =>
      (Throw (rethrown reason), after_request r (Rejected reason) w)
  end.
Proof.
  unfold api_request, promise_then, ret, request_onFulfilled,
    response_onFulfilled, bind, promise_then, dispatchRequest, throw,
    after_request, request_line, response_line.
  destruct logging_enabled;
    cbn [console_log ret loading error console sent];
    destruct (transport (sent w) r) as [response|reason];
    rewrite ?response_onRejected_run;
    cbn [ret loading error console sent response_line];
    rewrite <- ?app_assoc, ?app_nil_r; reflexivity.
Qed.

(** One operation of [gameAPI]: it throws when the path cannot be
    printed, and otherwise makes its request. *)
Lemma gameAPI_run (op : operation) (args : list value) (w : world) :
  gameAPI op args w =
  match request_of op args with
  | None => (Throw (ToPrimitive_TypeError (argument args 0)), w)
  | Some r =>
      match transport (sent w) r with
      | Resolved response =>
          (if is_nullish response
           then Throw (TypeError "response" response "data")
           else Normal (property response "data"),
           after_request r (Resolved response) w)
      | Rejected reason =>
          (Throw (rethrown reason), after_request r (Rejected reason) w)
      end
  end.
Proof.
  destruct op; cbn [gameAPI request_of];
    unfold startGame, takeTurn, getGameState, revealProvenance, endSession,
      healthCheck, template, api_post, api_get, api_delete, bind,
      promise_then;
    try (destruct (ToString (argument args 0)) as [text|];
         [cbn [ret]|reflexivity]);
    rewrite api_request_run;
    match goal with
    | |- context [transport ?s ?r] => destruct (transport s r) as [resp|reason]
    end;
    try reflexivity;
    unfold member; destruct (is_nullish resp); reflexivity.
Qed.

(** A binding of the hook sends what the operation would send for the
    caller's arguments. *)
Lemma request_of_passed_on (op : operation) (args : list value) :
  request_of op (passed_on op args) = request_of op args.
Proof. destruct op; reflexivity. Qed.

Lemma useGameApi_apiCall (op : operation) (args : list value) :
  useGameApi op args = apiCall (gameAPI op) (passed_on op args).
Proof. destruct op; reflexivity. Qed.

(** The wrapper, for any function it is given. *)
Lemma apiCall_run (apiFunction : list value -> M value) (args : list value)
    (w : world) :
  apiCall apiFunction args w =
  match apiFunction args (started w) with
  | (Normal result, w1) =>
      if is_nullish result then
        (Normal VNull,
         settled (shown_message (TypeError "result" result "error")) w1)
      else if ToBoolean (property result "error") then
        (Normal VNull, settled (property result "error") w1)
      else
        (Normal result, settled (error w1) w1)
  | (Throw err, w1) =>
      if is_nullish err then
        (Throw (TypeError "err" err "message"), settled (error w1) w1)
      else
        (Normal VNull, settled (shown_message err) w1)
  end.
Proof.
  unfold apiCall, bind, try_finally, try_catch, promise_then, setLoading,
    setError, member, throw, ret, started, settled, shown_message.
  cbn [loading error console sent].
  destruct (apiFunction args _) as [[result|err] w1].
  - destruct (is_nullish result) eqn:Hn.
    + cbn [is_nullish TypeError]. reflexivity.
    + destruct (ToBoolean (property result "error")); reflexivity.
  - destruct (is_nullish err); reflexivity.
Qed.

End Runs.

Section HookRuns.
Context {rt : Runtime} {env : Environment}.

(** Whatever an operation of [gameAPI] throws is an object. *)
Lemma gameAPI_throws_object (op : operation) (args : list value)
    (w w1 : world) (err : value) :
  gameAPI op args w = (Throw err, w1) -> is_nullish err = false.
Proof.
  rewrite gameAPI_run.
  destruct (request_of op args) as [r|];
    [|intros H; inversion H; reflexivity].
  destruct (transport _ _) as [response|reason].
  - destruct (is_nullish response); intros H; inversion H; reflexivity.
  - intros H; inversion H. apply rethrown_not_nullish.
Qed.

(** An operation touches neither cell of the hook, and sends its one
    request if it could build it. *)
Lemma gameAPI_frame (op : operation) (args : list value) (w : world) :
  loading (snd (gameAPI op args w)) = loading w /\
  error (snd (gameAPI op args w)) = error w /\
  sent (snd (gameAPI op args w)) =
    (sent w ++ match request_of op args with
               | Some r => [r]
               | None => []
               end)%list.
Proof.
  rewrite gameAPI_run.
  destruct (request_of op args) as [r|].
  - destruct (transport _ _); repeat split; reflexivity.
  - cbn [snd]. rewrite app_nil_r. repeat split.
Qed.

(** A binding of the hook, from the caller's arguments to the state it
    leaves. *)
Lemma useGameApi_run (op : operation) (args : list value) (w : world) :
  useGameApi op args w =
  match request_of op args with
  | None =>
      (Normal VNull,
       settled (shown_message (ToPrimitive_TypeError (argument args 0)))
         (started w))
  | Some r =>
      match transport (sent w) r with
      | Resolved response =>
          let w1 := after_request r (Resolved response) (started w) in
          if is_nullish response then
            (Normal VNull,
             settled (shown_message (TypeError "response" response "data"))
               w1)
          else if is_nullish (property response "data") then
            (Normal VNull,
             settled (shown_message
                        (TypeError "result" (property response "data")
                           "error"))
               w1)
          else if ToBoolean (property (property response "data") "error") then
            (Normal VNull,
             settled (property (property response "data") "error") w1)
          else
            (Normal (property response "data"), settled (VString "") w1)
      | Rejected reason =>
          (Normal VNull,
           settled (shown_message (rethrown reason))
             (after_request r (Rejected reason) (started w)))
      end
  end.
Proof.
  rewrite useGameApi_apiCall, apiCall_run, gameAPI_run, request_of_passed_on.
  assert (A : request_of op args = None ->
              argument (passed_on op args) 0 = argument args 0).
  { destruct op; try discriminate; reflexivity. }
  destruct (request_of op args) as [r|].
  - cbn zeta. cbn [started sent].
    destruct (transport (sent w) r) as [response|reason].
    + destruct (is_nullish response); [reflexivity|].
      destruct (is_nullish (property response "data")); [reflexivity|].
      destruct (ToBoolean _); reflexivity.
    + rewrite rethrown_not_nullish. reflexivity.
  - rewrite (A eq_refl). reflexivity.
Qed.

(** The wrapper catches every failure that is not [null] or
    [undefined] ... *)
Lemma apiCall_catches (apiFunction : list value -> M value)
    (args : list value) (w w1 : world) (err : value) :
  apiFunction args (started w) = (Throw err, w1) ->
  is_nullish err = false ->
  apiCall apiFunction args w = (Normal VNull, settled (shown_message err) w1).
Proof. intros Hf Hn. rewrite apiCall_run, Hf, Hn. reflexivity. Qed.

(** ... and for those two its handler fails reading [err.message]: the
    wrapper throws, after the flag is reset. *)
Lemma apiCall_rethrows_nullish (apiFunction : list value -> M value)
    (args : list value) (w w1 : world) (err : value) :
  apiFunction args (started w) = (Throw err, w1) ->
  is_nullish err = true ->
  apiCall apiFunction args w =
  (Throw (TypeError "err" err "message"), settled (error w1) w1).
Proof. intros Hf Hn. rewrite apiCall_run, Hf, Hn. reflexivity. Qed.

End HookRuns.

(** ** The properties of the specification *)

Section Claims.
Context {rt : Runtime} {env : Environment}.

(** C1.  A transport failure [reason] of the request [r] of any of the
    six operations is normalized by the response interceptor, and the
    hook shows the resulting message with a [null] result:
    - a response with status 404 gives "Game session not found";
    - a response with a status of 500 or more gives "Server error -
      please try again later";
    - an aborted transport (code [ECONNABORTED], which is how axios
      reports the deadline of 10000 ms) gives "Request timeout - please
      check your connection";
    - any other failure is thrown again as it is, and the hook shows its
      message. *)
Theorem transport_failure_normalized (op : operation) (args : list value)
    (w : world) (r : request) (reason : value) :
  request_of op args = Some r ->
  transport (sent w) r = Rejected reason ->
  is_nullish reason = false ->
  (status_of reason = VNumber (Num 404) ->
   fst (gameAPI op args w) = Throw (Error "Game session not found") /\
   fst (useGameApi op args w) = Normal VNull /\
   error (snd (useGameApi op args w)) = VString "Game session not found")
  /\
  (forall z, status_of reason = VNumber (Num z) -> 500 <= z ->
   fst (gameAPI op args w) =
     Throw (Error "Server error - please try again later") /\
   fst (useGameApi op args w) = Normal VNull /\
   error (snd (useGameApi op args w)) =
     VString "Server error - please try again later")
  /\
  (strict_equal_number (status_of reason) 404 = false ->
   greater_equal (status_of reason) 500 = Some false ->
   property reason "code" = VString "ECONNABORTED" ->
   fst (gameAPI op args w) =
     Throw (Error "Request timeout - please check your connection") /\
   fst (useGameApi op args w) = Normal VNull /\
   error (snd (useGameApi op args w)) =
     VString "Request timeout - please check your connection")
  /\
  (strict_equal_number (status_of reason) 404 = false ->
   greater_equal (status_of reason) 500 = Some false ->
   strict_equal_string (property reason "code") "ECONNABORTED" = false ->
   fst (gameAPI op args w) = Throw reason /\
   fst (useGameApi op args w) = Normal VNull /\
   error (snd (useGameApi op args w)) = shown_message reason).
Proof.
  intros Hr Ht Hn.
  rewrite useGameApi_run, gameAPI_run, Hr, Ht.
  cbn [fst snd settled error]. unfold rethrown. rewrite Hn.
  split; [|split; [|split]].
  - intros H404. rewrite H404. repeat split.
  - intros z Hz Hge. rewrite Hz.
    cbn [strict_equal_number greater_equal ToNumber].
    destruct (z =? 404) eqn:E; [apply Z.eqb_eq in E; lia|].
    destruct (500 <=? z) eqn:E'; [|apply Z.leb_gt in E'; lia].
    repeat split.
  - intros H404 H500 Hcode. rewrite H404, H500, Hcode. repeat split.
  - intros H404 H500 Hcode. rewrite H404, H500, Hcode. repeat split.
Qed.

(** C2.  Whatever function [apiCall] is given and however the call ends,
    the state it leaves has [loading] false; so has each of the six
    bindings. *)
Theorem loading_false_after_settle :
  (forall (apiFunction : list value -> M value) (args : list value)
          (w : world),
     loading (snd (apiCall apiFunction args w)) = false)
  /\
  (forall (op : operation) (args : list value) (w : world),
     loading (snd (useGameApi op args w)) = false).
Proof.
  assert (G : forall apiFunction args w,
             loading (snd (apiCall apiFunction args w)) = false).
  { intros f args w. rewrite apiCall_run.
    destruct (f args (started w)) as [[result|err] w1].
    - destruct (is_nullish result); [reflexivity|].
      destruct (ToBoolean _); reflexivity.
    - destruct (is_nullish err); reflexivity. }
  split; [exact G|].
  intros op args w. rewrite useGameApi_apiCall. apply G.
Qed.

(** C3.  When the transport resolves and the body of the response has a
    truthy [error] property, the operation itself returns that body, no
    failure being thrown at the client, and the binding returns [null]
    without throwing; the hook's [error] is the value of that
    property. *)
Theorem embedded_error_reported (op : operation) (args : list value)
    (w : world) (r : request) (response : value) :
  request_of op args = Some r ->
  transport (sent w) r = Resolved response ->
  is_nullish response = false ->
  ToBoolean (property (property response "data") "error") = true ->
  fst (gameAPI op args w) = Normal (property response "data") /\
  fst (useGameApi op args w) = Normal VNull /\
  error (snd (useGameApi op args w)) =
    property (property response "data") "error" /\
  loading (snd (useGameApi op args w)) = false.
Proof.
  intros Hr Ht Hn He.
  rewrite useGameApi_run, gameAPI_run, Hr, Ht. cbn zeta. rewrite Hn.
  destruct (property response "data") as [| | | | |fields] eqn:Hb;
    try discriminate He.
  cbn [is_nullish]. rewrite He. repeat split.
Qed.

(** C4 (as the code has it).  When the transport resolves with a body
    that is neither [null] nor [undefined] and has no truthy [error]
    property, each of the six bindings returns that body and leaves
    [loading] false and [error] the empty string.  A body that is [null]
    or [undefined] has no [error] property either, but is reported as a
    failure. *)
Theorem clean_success (op : operation) (args : list value) (w : world)
    (r : request) (response : value) :
  request_of op args = Some r ->
  transport (sent w) r = Resolved response ->
  is_nullish response = false ->
  is_nullish (property response "data") = false ->
  ToBoolean (property (property response "data") "error") = false ->
  fst (useGameApi op args w) = Normal (property response "data") /\
  property response "data" <> VNull /\
  loading (snd (useGameApi op args w)) = false /\
  error (snd (useGameApi op args w)) = VString "".
Proof.
  intros Hr Ht Hn Hb He.
  rewrite useGameApi_run, Hr, Ht. cbn zeta. rewrite Hn, Hb, He.
  repeat split. intros E. rewrite E in Hb. discriminate Hb.
Qed.

(** C5.  When the operation a binding awaits throws [err], the binding
    returns [null] instead of throwing, and the hook's [error] is
    [err.message], or "An unexpected error occurred" when that is
    missing or falsy. *)
Theorem failure_captured (op : operation) (args : list value)
    (w w1 : world) (err : value) :
  gameAPI op (passed_on op args) (started w) = (Throw err, w1) ->
  fst (useGameApi op args w) = Normal VNull /\
  error (snd (useGameApi op args w)) =
    (if ToBoolean (property err "message")
     then property err "message"
     else VString "An unexpected error occurred").
Proof.
  intros Hf. rewrite useGameApi_apiCall.
  rewrite (apiCall_catches _ _ _ _ _ Hf (gameAPI_throws_object _ _ _ _ _ Hf)).
  split; reflexivity.
Qed.

(** C6 (as the code has it).  With logging enabled, an operation writes
    its request [r] and then its response, fulfilled or failed, on the
    console.  With logging disabled, which is the case when the variable
    is not set, it writes nothing for the request nor for a fulfilled
    response; a failed response is written all the same, by the
    interceptor's [console.error]. *)
Theorem logging_gate (op : operation) (args : list value) (w : world)
    (r : request) :
  request_of op args = Some r ->
  (logging_enabled = true ->
   console (snd (gameAPI op args w)) =
   (console w
      ++ [{| level := log; label := "API Request:";
             payload := config r |}]
      ++ [match transport (sent w) r with
          | Resolved response =>
              {| level := log; label := "API Response:";
                 payload := response |}
          | Rejected reason =>
              {| level := error_level; label := "API Response Error:";
                 payload := reason |}
          end])%list)
  /\
  (logging_enabled = false ->
   console (snd (gameAPI op args w)) =
   (console w
      ++ match transport (sent w) r with
         | Resolved _ => []
         | Rejected reason =>
             [{| level := error_level; label := "API Response Error:";
                 payload := reason |}]
         end)%list)
  /\
  (VITE_ENABLE_LOGGING = VUndefined -> logging_enabled = false).
Proof.
  intros Hr. rewrite gameAPI_run, Hr.
  split; [|split].
  - intros Hl.
    destruct (transport _ _) as [response|reason];
      cbn [snd after_request console];
      unfold request_line, response_line; rewrite ?Hl; reflexivity.
  - intros Hl.
    destruct (transport _ _) as [response|reason];
      cbn [snd after_request console];
      unfold request_line, response_line; rewrite ?Hl; reflexivity.
  - intros Hu. unfold logging_enabled. rewrite Hu. reflexivity.
Qed.

(** C7.  [takeTurn] hands exactly one request to the transport, a POST
    to /take_turn whose body has the properties [session_id],
    [player_name], [chosen_path_id] and [insurance], the last one [false]
    when the caller leaves it out; [startGame] hands over one POST to
    /start_game with [player_name] and [seed], the latter [null] when
    left out. *)
Theorem request_bodies (sessionId playerName pathId insurance clientSeed : value)
    (w : world) :
  (insurance <> VUndefined ->
   sent (snd (takeTurn [sessionId; playerName; pathId; insurance] w)) =
   (sent w ++ [{| method := POST; url := "/take_turn";
                  data := VObject [("session_id", sessionId);
                                   ("player_name", playerName);
                                   ("chosen_path_id", pathId);
                                   ("insurance", insurance)] |}])%list)
  /\
  sent (snd (takeTurn [sessionId; playerName; pathId] w)) =
  (sent w ++ [{| method := POST; url := "/take_turn";
                 data := VObject [("session_id", sessionId);
                                  ("player_name", playerName);
                                  ("chosen_path_id", pathId);
                                  ("insurance", VBool false)] |}])%list
  /\
  (clientSeed <> VUndefined ->
   sent (snd (startGame [playerName; clientSeed] w)) =
   (sent w ++ [{| method := POST; url := "/start_game";
                  data := VObject [("player_name", playerName);
                                   ("seed", clientSeed)] |}])%list)
  /\
  sent (snd (startGame [playerName] w)) =
  (sent w ++ [{| method := POST; url := "/start_game";
                 data := VObject [("player_name", playerName);
                                  ("seed", VNull)] |}])%list.
Proof.
  pose proof (fun args => proj2 (proj2 (gameAPI_frame TakeTurn args w))) as HT.
  pose proof (fun args => proj2 (proj2 (gameAPI_frame StartGame args w))) as HS.
  cbn [gameAPI request_of] in HT, HS.
  split; [|split; [|split]].
  - intros Hi. rewrite HT. cbn.
    destruct insurance; try reflexivity. contradiction.
  - rewrite HT. reflexivity.
  - intros Hc. rewrite HS. cbn.
    destruct clientSeed; try reflexivity. contradiction.
  - rewrite HS. reflexivity.
Qed.

(** C8.  [clearError] sets [error] to the empty string and changes
    nothing else; in particular [loading] stays as it is. *)
Theorem clearError_only_clears (w : world) :
  clearError w =
  (Normal tt,
   {| loading := loading w; error := VString "";
      console := console w; sent := sent w |}).
Proof. reflexivity. Qed.

(** C9.  No binding of the hook ever throws: whatever its arguments and
    whatever the transport does, fulfilling with any value or failing
    with any value, the binding returns either the body of the response
    to its request or [null]. *)
Theorem useGameApi_never_throws (op : operation) (args : list value)
    (w : world) :
  exists v : value,
    fst (useGameApi op args w) = Normal v /\
    (v = VNull \/
     exists (r : request) (response : value),
       request_of op args = Some r /\
       transport (sent w) r = Resolved response /\
       v = property response "data").
Proof.
  rewrite useGameApi_run.
  destruct (request_of op args) as [r|]; [|exists VNull; split; auto].
  cbn zeta.
  destruct (transport _ _) as [response|reason] eqn:Ht.
  - destruct (is_nullish response); [exists VNull; split; auto|].
    destruct (is_nullish (property response "data"));
      [exists VNull; split; auto|].
    destruct (ToBoolean _); [exists VNull; split; auto|].
    exists (property response "data"). split; [reflexivity|].
    right. exists r, response. repeat split. exact Ht.
  - exists VNull. split; auto.
Qed.

(** C10.  When the transport resolves with a response whose body is
    [null] or [undefined], reading [result.error] fails, the failure is
    caught, and the binding returns [null]; the hook's [error] is the
    message of that [TypeError] (the fallback text, should an engine give
    it no message) and never the empty string. *)
Theorem nullish_body_reported (op : operation) (args : list value)
    (w : world) (r : request) (response : value) :
  request_of op args = Some r ->
  transport (sent w) r = Resolved response ->
  is_nullish response = false ->
  is_nullish (property response "data") = true ->
  fst (useGameApi op args w) = Normal VNull /\
  error (snd (useGameApi op args w)) =
    shown_message (TypeError "result" (property response "data") "error") /\
  (TypeError_message "result" (property response "data") "error" <> "" ->
   error (snd (useGameApi op args w)) =
     VString (TypeError_message "result" (property response "data") "error"))
  /\
  error (snd (useGameApi op args w)) <> VString "".
Proof.
  intros Hr Ht Hn Hb.
  rewrite useGameApi_run, Hr, Ht. cbn zeta. rewrite Hn, Hb.
  cbn [fst snd settled error].
  split; [reflexivity|]. split; [reflexivity|]. split.
  - intros Hm. unfold shown_message, logical_or, TypeError.
    cbn [property own_property String.eqb Ascii.eqb Bool.eqb ToBoolean].
    destruct (String.eqb_spec
                (TypeError_message "result" (property response "data") "error")
                ""); [contradiction|reflexivity].
  - intros E.
    pose proof (shown_message_truthy
                  (TypeError "result" (property response "data") "error")) as T.
    rewrite E in T. discriminate T.
Qed.

End Claims.

(** ** The scenarios of the specification, run *)

(** [startGame("Ava", null)] against a server that answers with a
    session. *)
Example scenario_startGame :
  @useGameApi V8 server_starting StartGame [VString "Ava"; VNull] idle =
  (Normal game_started,
   {| loading := false; error := VString ""; console := [];
      sent := [{| method := POST; url := "/start_game";
                  data := VObject [("player_name", VString "Ava");
                                   ("seed", VNull)] |}] |}).
Proof. reflexivity. Qed.

(** [takeTurn("abc123", "Ava", "path-2", false)] against a server that
    answers 200 with [{error: "invalid path"}]. *)
Example scenario_takeTurn :
  @useGameApi V8 server_refusing TakeTurn
    [VString "abc123"; VString "Ava"; VString "path-2"; VBool false] idle =
  (Normal VNull,
   {| loading := false; error := VString "invalid path"; console := [];
      sent := [{| method := POST; url := "/take_turn";
                  data := VObject [("session_id", VString "abc123");
                                   ("player_name", VString "Ava");
                                   ("chosen_path_id", VString "path-2");
                                   ("insurance", VBool false)] |}] |}).
Proof. reflexivity. Qed.

(** A state that is fetched for a session the server does not know. *)
Example scenario_unknown_session :
  @useGameApi V8 session_unknown GetGameState [VString "abc123"] idle =
  (Normal VNull,
   {| loading := false; error := VString "Game session not found";
      console :=
        [{| level := error_level; label := "API Response Error:";
            payload :=
              bad_status 404 (VObject [("detail", VString "Not Found")]) |}];
      sent := [{| method := GET; url := "/game_state/abc123";
                  data := VUndefined |}] |}).
Proof. reflexivity. Qed.

(** ** Instances of the properties *)

Lemma transport_failure_normalized_witness :
  error (snd (@useGameApi V8 session_unknown GetGameState
                [VString "abc123"] idle))
    = VString "Game session not found" /\
  error (snd (@useGameApi V8 server_failing HealthCheck [] idle))
    = VString "Server error - please try again later" /\
  error (snd (@useGameApi V8 server_silent HealthCheck [] idle))
    = VString "Request timeout - please check your connection" /\
  (fst (@gameAPI V8 server_unreachable HealthCheck [] idle)
     = Throw network_error /\
   error (snd (@useGameApi V8 server_unreachable HealthCheck [] idle))
     = VString "Network Error").
Proof.
  split; [|split; [|split]].
  - pose proof (@transport_failure_normalized V8 session_unknown
                  GetGameState [VString "abc123"] idle _ _ eq_refl eq_refl
                  eq_refl)
      as (H & _).
    exact (proj2 (proj2 (H eq_refl))).
  - pose proof (@transport_failure_normalized V8 server_failing
                  HealthCheck [] idle _ _ eq_refl eq_refl eq_refl)
      as (_ & H & _).
    refine (proj2 (proj2 (H 503 eq_refl _))). lia.
  - pose proof (@transport_failure_normalized V8 server_silent
                  HealthCheck [] idle _ _ eq_refl eq_refl eq_refl)
      as (_ & _ & H & _).
    exact (proj2 (proj2 (H eq_refl eq_refl eq_refl))).
  - pose proof (@transport_failure_normalized V8 server_unreachable
                  HealthCheck [] idle _ _ eq_refl eq_refl eq_refl)
      as (_ & _ & _ & H).
    destruct (H eq_refl eq_refl eq_refl) as (Hg & _ & He).
    split; [exact Hg|exact He].
Defined.

Lemma embedded_error_reported_witness :
  fst (@gameAPI V8 server_refusing TakeTurn
         [VString "abc123"; VString "Ava"; VString "path-2"; VBool false]
         idle) = Normal (VObject [("error", VString "invalid path")]) /\
  fst (@useGameApi V8 server_refusing TakeTurn
         [VString "abc123"; VString "Ava"; VString "path-2"; VBool false]
         idle) = Normal VNull /\
  error (snd (@useGameApi V8 server_refusing TakeTurn
                [VString "abc123"; VString "Ava"; VString "path-2";
                 VBool false] idle)) = VString "invalid path" /\
  loading (snd (@useGameApi V8 server_refusing TakeTurn
                  [VString "abc123"; VString "Ava"; VString "path-2";
                   VBool false] idle)) = false.
Proof.
  exact (@embedded_error_reported V8 server_refusing TakeTurn
           [VString "abc123"; VString "Ava"; VString "path-2"; VBool false]
           idle _ _ eq_refl eq_refl eq_refl eq_refl).
Defined.

Lemma clean_success_witness :
  fst (@useGameApi V8 server_starting StartGame [VString "Ava"; VNull] idle)
    = Normal game_started /\
  game_started <> VNull /\
  loading (snd (@useGameApi V8 server_starting StartGame
                  [VString "Ava"; VNull] idle)) = false /\
  error (snd (@useGameApi V8 server_starting StartGame
                [VString "Ava"; VNull] idle)) = VString "".
Proof.
  exact (@clean_success V8 server_starting StartGame [VString "Ava"; VNull]
           idle _ _ eq_refl eq_refl eq_refl eq_refl eq_refl).
Defined.

(** A response 200 whose body is the JSON text [null] has no [error]
    property, and yet the binding does not end with [error] empty: it
    returns [null] and reports the failure of reading [result.error]. *)
Lemma clean_success_fails_on_null_body :
  @transport server_null_body []
    {| method := GET; url := "/game_state/abc123"; data := VUndefined |}
    = Resolved (http_response 200 VNull) /\
  property (property (http_response 200 VNull) "data") "error" = VUndefined /\
  fst (@useGameApi V8 server_null_body GetGameState [VString "abc123"] idle)
    = Normal VNull /\
  error (snd (@useGameApi V8 server_null_body GetGameState
                [VString "abc123"] idle)) <> VString "".
Proof. repeat split. discriminate. Qed.

Lemma failure_captured_witness :
  fst (@useGameApi V8 server_unreachable EndSession [VString "abc123"] idle)
    = Normal VNull /\
  error (snd (@useGameApi V8 server_unreachable EndSession
                [VString "abc123"] idle)) = VString "Network Error".
Proof.
  exact (@failure_captured V8 server_unreachable EndSession
           [VString "abc123"] idle _ _ eq_refl).
Defined.

Lemma logging_gate_witness :
  console (snd (@gameAPI V8 server_starting_logged StartGame
                  [VString "Ava"] idle)) =
  [{| level := log; label := "API Request:";
      payload :=
        @config server_starting_logged
          {| method := POST; url := "/start_game";
             data := VObject [("player_name", VString "Ava");
                              ("seed", VNull)] |} |};
   {| level := log; label := "API Response:";
      payload := http_response 200 game_started |}] /\
  console (snd (@gameAPI V8 server_unreachable_logged HealthCheck [] idle)) =
  [{| level := log; label := "API Request:";
      payload :=
        @config server_unreachable_logged
          {| method := GET; url := "/health"; data := VUndefined |} |};
   {| level := error_level; label := "API Response Error:";
      payload := network_error |}] /\
  console (snd (@gameAPI V8 server_starting StartGame [VString "Ava"] idle))
    = [] /\
  @logging_enabled server_starting = false.
Proof.
  split; [|split; [|split]].
  - exact (proj1 (@logging_gate V8 server_starting_logged StartGame
                    [VString "Ava"] idle _ eq_refl) eq_refl).
  - exact (proj1 (@logging_gate V8 server_unreachable_logged HealthCheck
                    [] idle _ eq_refl) eq_refl).
  - exact (proj1 (proj2 (@logging_gate V8 server_starting StartGame
                           [VString "Ava"] idle _ eq_refl)) eq_refl).
  - exact (proj2 (proj2 (@logging_gate V8 server_starting StartGame
                           [VString "Ava"] idle _ eq_refl)) eq_refl).
Defined.

(** With logging disabled, a failed response is written on the console
    all the same: the health check against a server that cannot be
    reached leaves a line that was not there before. *)
Lemma logging_disabled_failure_written :
  @logging_enabled server_unreachable = false /\
  console (snd (@gameAPI V8 server_unreachable HealthCheck [] idle)) =
  [{| level := error_level; label := "API Response Error:";
      payload := network_error |}] /\
  console (snd (@gameAPI V8 server_unreachable HealthCheck [] idle))
    <> console idle.
Proof. repeat split. discriminate. Qed.

Lemma request_bodies_witness :
  sent (snd (@takeTurn V8 server_refusing
               [VString "abc123"; VString "Ava"; VString "path-2"; VBool true]
               idle)) =
  [{| method := POST; url := "/take_turn";
      data := VObject [("session_id", VString "abc123");
                       ("player_name", VString "Ava");
                       ("chosen_path_id", VString "path-2");
                       ("insurance", VBool true)] |}] /\
  sent (snd (@startGame V8 server_starting
               [VString "Ava"; VNumber (Num 42)] idle)) =
  [{| method := POST; url := "/start_game";
      data := VObject [("player_name", VString "Ava");
                       ("seed", VNumber (Num 42))] |}].
Proof.
  split.
  - refine (proj1 (@request_bodies V8 server_refusing (VString "abc123")
                     (VString "Ava") (VString "path-2") (VBool true) VNull
                     idle) _).
    discriminate.
  - refine (proj1 (proj2 (proj2
             (@request_bodies V8 server_starting (VString "abc123")
                (VString "Ava") (VString "path-2") (VBool true)
                (VNumber (Num 42)) idle))) _).
    discriminate.
Defined.

Lemma nullish_body_reported_witness :
  fst (@useGameApi V8 server_null_body GetGameState [VString "abc123"] idle)
    = Normal VNull /\
  error (snd (@useGameApi V8 server_null_body GetGameState
                [VString "abc123"] idle))
    = VString "Cannot read properties of null (reading 'error')".
Proof.
  pose proof (@nullish_body_reported V8 server_null_body GetGameState
                [VString "abc123"] idle _ _ eq_refl eq_refl eq_refl eq_refl)
    as (Hr & _ & Hm & _).
  split; [exact Hr|].
  apply Hm. discriminate.
Defined.

(** ** Further properties of the client and the hook *)

Section Further.
Context {rt : Runtime} {env : Environment}.

Lemma useGameApi_normal (op : operation) (args : list value) (w : world) :
  exists v : value, fst (useGameApi op args w) = Normal v.
Proof.
  rewrite useGameApi_run.
  destruct (request_of op args) as [r|]; [|eexists; reflexivity].
  cbn zeta.
  destruct (transport _ _) as [response|reason]; [|eexists; reflexivity].
  destruct (is_nullish response); [eexists; reflexivity|].
  destruct (is_nullish (property response "data")); [eexists; reflexivity|].
  destruct (ToBoolean _); eexists; reflexivity.
Qed.

Lemma useGameApi_sent (op : operation) (args : list value) (w : world) :
  sent (snd (useGameApi op args w)) = (sent w ++ requests_of op args)%list.
Proof.
  rewrite useGameApi_run. unfold requests_of.
  destruct (request_of op args) as [r|];
    [|cbn [snd settled sent started]; rewrite app_nil_r; reflexivity].
  cbn zeta.
  destruct (transport _ _) as [response|reason]; [|reflexivity].
  destruct (is_nullish response); [reflexivity|].
  destruct (is_nullish (property response "data")); [reflexivity|].
  destruct (ToBoolean _); reflexivity.
Qed.

Lemma useGameApi_console (op : operation) (args : list value) (w : world) :
  console (snd (useGameApi op args w)) = console (snd (gameAPI op args w)).
Proof.
  rewrite useGameApi_run, gameAPI_run.
  destruct (request_of op args) as [r|]; [|reflexivity].
  cbn zeta.
  destruct (transport _ _) as [response|reason]; [|reflexivity].
  destruct (is_nullish response); [reflexivity|].
  destruct (is_nullish (property response "data")); [reflexivity|].
  destruct (ToBoolean _); reflexivity.
Qed.

Lemma app_cons_not_self {A} (l t : list A) (x : A) :
  (l ++ x :: t)%list <> l.
Proof.
  intros E. apply (f_equal (@length A)) in E.
  rewrite length_app in E. cbn in E. lia.
Qed.

(** X1.  The operations that carry the session in the path print the
    session id as a template literal does.  When it prints as [text],
    each hands exactly one request without a body to the transport:
    [getGameState] a GET of /game_state/[text], [revealProvenance] a GET
    of /reveal_game/[text], [endSession] a DELETE of /session/[text].
    When printing throws, the operation throws that [TypeError] and
    sends nothing.  [healthCheck] always sends one GET of /health.
    Further arguments are ignored, and a session id left out is not
    refused: the path then ends in "undefined". *)
Theorem path_operations_requests (sessionId : value) (more : list value)
    (w : world) :
  (forall text : string,
     ToString sessionId = Some text ->
     sent (snd (getGameState (sessionId :: more) w)) =
     (sent w ++ [{| method := GET; url := "/game_state/" ++ text;
                    data := VUndefined |}])%list
     /\
     sent (snd (revealProvenance (sessionId :: more) w)) =
     (sent w ++ [{| method := GET; url := "/reveal_game/" ++ text;
                    data := VUndefined |}])%list
     /\
     sent (snd (endSession (sessionId :: more) w)) =
     (sent w ++ [{| method := DELETE; url := "/session/" ++ text;
                    data := VUndefined |}])%list)
  /\
  (ToString sessionId = None ->
   getGameState (sessionId :: more) w =
     (Throw (ToPrimitive_TypeError sessionId), w) /\
   revealProvenance (sessionId :: more) w =
     (Throw (ToPrimitive_TypeError sessionId), w) /\
   endSession (sessionId :: more) w =
     (Throw (ToPrimitive_TypeError sessionId), w))
  /\
  sent (snd (healthCheck more w)) =
  (sent w ++ [{| method := GET; url := "/health"; data := VUndefined |}])%list
  /\
  sent (snd (getGameState [] w)) =
  (sent w ++ [{| method := GET; url := "/game_state/undefined";
                 data := VUndefined |}])%list.
Proof.
  pose proof (fun op args => proj2 (proj2 (gameAPI_frame op args w))) as F.
  split; [|split; [|split]].
  - intros text Ht.
    pose proof (F GetGameState (sessionId :: more)) as F1.
    pose proof (F RevealProvenance (sessionId :: more)) as F2.
    pose proof (F EndSession (sessionId :: more)) as F3.
    cbn [gameAPI request_of argument nth] in F1, F2, F3.
    rewrite Ht in F1, F2, F3. repeat split; assumption.
  - intros Ht.
    pose proof (gameAPI_run GetGameState (sessionId :: more) w) as G1.
    pose proof (gameAPI_run RevealProvenance (sessionId :: more) w) as G2.
    pose proof (gameAPI_run EndSession (sessionId :: more) w) as G3.
    cbn [gameAPI request_of argument nth] in G1, G2, G3.
    rewrite Ht in G1, G2, G3. repeat split; assumption.
  - exact (F HealthCheck more).
  - exact (F GetGameState []).
Qed.

(** X2.  The two [console.log] lines are written only when
    [VITE_ENABLE_LOGGING] is exactly the string 'true': for a request
    that the transport fulfils, the console is left as it was if and
    only if the variable is anything else, the boolean [true]
    included. *)
Theorem logging_needs_string_true (op : operation) (args : list value)
    (w : world) (r : request) (response : value) :
  request_of op args = Some r ->
  transport (sent w) r = Resolved response ->
  (console (snd (gameAPI op args w)) = console w <->
   VITE_ENABLE_LOGGING <> VString "true").
Proof.
  intros Hr Ht. rewrite gameAPI_run, Hr, Ht.
  cbn [snd after_request console]. unfold request_line, response_line.
  unfold logging_enabled.
  destruct VITE_ENABLE_LOGGING as [| | b | n | s | fields];
    cbn [strict_equal_string];
    try (rewrite app_nil_r; split; [discriminate|reflexivity]).
  destruct (String.eqb_spec s "true") as [E|N].
  - subst s. split.
    + intros E. exfalso. cbn in E. exact (app_cons_not_self _ _ _ E).
    + intros N. contradiction N. reflexivity.
  - rewrite app_nil_r. split; [|reflexivity].
    intros _ E. apply N. congruence.
Qed.

(** X3.  The hook sends nothing and writes nothing of its own: after a
    binding has run, the console and the requests sent are those its
    operation of [gameAPI] leaves.  Whatever the outcome, what was sent
    is the operation's one request, or nothing when the operation could
    not build it; nothing is tried a second time. *)
Theorem hook_adds_nothing (op : operation) (args : list value) (w : world) :
  console (snd (useGameApi op args w)) = console (snd (gameAPI op args w)) /\
  sent (snd (useGameApi op args w)) = sent (snd (gameAPI op args w)) /\
  sent (snd (useGameApi op args w)) =
    (sent w ++ match request_of op args with
               | Some r => [r]
               | None => []
               end)%list.
Proof.
  split; [apply useGameApi_console|].
  rewrite useGameApi_sent.
  split; [|reflexivity].
  symmetry. apply gameAPI_frame.
Qed.

(** X4.  A binding starts afresh: what it returns and the state it
    leaves do not depend on the [loading] and [error] it finds, so an
    error of an earlier call never survives a later one. *)
Theorem previous_state_forgotten (op : operation) (args : list value)
    (l l' : bool) (e e' : value) (c : list console_entry)
    (s : list request) :
  useGameApi op args
    {| loading := l; error := e; console := c; sent := s |} =
  useGameApi op args
    {| loading := l'; error := e'; console := c; sent := s |}.
Proof. rewrite !useGameApi_run. reflexivity. Qed.

(** X5.  The result and the error of a binding agree: it returns [null]
    exactly when it leaves a truthy [error], and an [error] that is not
    truthy is the empty string. *)
Theorem null_result_iff_error (op : operation) (args : list value)
    (w : world) :
  (fst (useGameApi op args w) = Normal VNull <->
   ToBoolean (error (snd (useGameApi op args w))) = true)
  /\
  (ToBoolean (error (snd (useGameApi op args w))) = false ->
   error (snd (useGameApi op args w)) = VString "").
Proof.
  rewrite useGameApi_run.
  destruct (request_of op args) as [r|].
  2:{ cbn [fst snd settled error]. rewrite shown_message_truthy.
      split; [split; reflexivity|discriminate]. }
  cbn zeta.
  destruct (transport _ _) as [response|reason].
  - destruct (is_nullish response).
    { cbn [fst snd settled error]. rewrite shown_message_truthy.
      split; [split; reflexivity|discriminate]. }
    destruct (is_nullish (property response "data")) eqn:Hb.
    { cbn [fst snd settled error]. rewrite shown_message_truthy.
      split; [split; reflexivity|discriminate]. }
    destruct (ToBoolean (property (property response "data") "error"))
      eqn:He.
    { cbn [fst snd settled error]. rewrite He.
      split; [split; reflexivity|discriminate]. }
    cbn [fst snd settled error ToBoolean String.eqb negb].
    split; [|reflexivity].
    split; [|discriminate].
    intros E. inversion E as [E']. rewrite E' in Hb. discriminate Hb.
  - cbn [fst snd settled error]. rewrite shown_message_truthy.
    split; [split; reflexivity|discriminate].
Qed.

(** X6.  [apiCall] does throw when the function it awaits rejects with
    [null] or [undefined]: its handler fails reading [err.message], the
    [TypeError] escapes, [loading] is false all the same and [error] is
    left as the function left it. *)
Theorem apiCall_nullish_rejection_escapes
    (apiFunction : list value -> M value) (args : list value)
    (w w1 : world) (err : value) :
  apiFunction args (started w) = (Throw err, w1) ->
  is_nullish err = true ->
  fst (apiCall apiFunction args w) = Throw (TypeError "err" err "message") /\
  loading (snd (apiCall apiFunction args w)) = false /\
  error (snd (apiCall apiFunction args w)) = error w1.
Proof.
  intros Hf Hn. rewrite apiCall_run, Hf, Hn. repeat split.
Qed.

(** X7.  Calls one after the other: the first never stops the second,
    which runs in the state the first leaves; what is sent is the
    request of the first, then that of the second, each one only if its
    operation could build it; and [loading] is false at the end. *)
Theorem calls_in_sequence (op1 op2 : operation) (args1 args2 : list value)
    (w : world) :
  bind (useGameApi op1 args1) (fun _ => useGameApi op2 args2) w =
  useGameApi op2 args2 (snd (useGameApi op1 args1 w))
  /\
  sent (snd (useGameApi op2 args2 (snd (useGameApi op1 args1 w)))) =
  (sent w ++ requests_of op1 args1 ++ requests_of op2 args2)%list
  /\
  loading (snd (useGameApi op2 args2 (snd (useGameApi op1 args1 w)))) = false.
Proof.
  split; [|split].
  - unfold bind, promise_then.
    destruct (useGameApi_normal op1 args1 w) as [v Hv].
    destruct (useGameApi op1 args1 w) as [c w1].
    cbn [fst] in Hv. subst c. reflexivity.
  - rewrite !useGameApi_sent, <- app_assoc. reflexivity.
  - rewrite useGameApi_apiCall, apiCall_run.
    destruct (gameAPI _ _ _) as [[result|err] w1].
    + destruct (is_nullish result); [reflexivity|].
      destruct (ToBoolean _); reflexivity.
    + destruct (is_nullish err); reflexivity.
Qed.

(** X8.  The response interceptor guards a missing [response] but not a
    missing failure: when the transport rejects the request [r] with
    [null] or [undefined], reading [error.response] fails after the
    console line is written, the operation throws that [TypeError]
    instead of the failure, and the binding returns [null] with the
    [TypeError]'s message. *)
Theorem nullish_failure_becomes_TypeError (op : operation)
    (args : list value) (w : world) (r : request) (reason : value) :
  request_of op args = Some r ->
  transport (sent w) r = Rejected reason ->
  is_nullish reason = true ->
  fst (gameAPI op args w) = Throw (TypeError "error" reason "response") /\
  console (snd (gameAPI op args w)) =
    (console w ++ request_line r
       ++ [{| level := error_level; label := "API Response Error:";
              payload := reason |}])%list /\
  fst (useGameApi op args w) = Normal VNull /\
  error (snd (useGameApi op args w)) =
    shown_message (TypeError "error" reason "response").
Proof.
  intros Hr Ht Hn.
  rewrite useGameApi_run, gameAPI_run, Hr, Ht.
  unfold rethrown. rewrite Hn. repeat split.
Qed.

End Further.

(** ** Properties of [App] and of the error boundary *)

Section AppProperties.
Context {rt : Runtime} {net : App.Network}.

(** X9.  [testAPI] does not look at the HTTP status: for a response of
    any status whose body parses to a value other than [null] or
    [undefined], the outcome follows the body's [status] property alone.
    When that property prints as [text] ("undefined" when the body has
    none), the message becomes "API Connected: " followed by [text];
    when printing it throws, the [TypeError] is caught and the message
    becomes "API Error: " followed by the [TypeError]'s message. *)
Theorem testAPI_ignores_http_status (s : App.state) (r : App.response)
    (body : value) :
  App.fetch "http://localhost:8000/health" = App.Fulfilled r ->
  App.json r = Resolved body ->
  is_nullish body = false ->
  (forall text : string,
     ToString (property body "status") = Some text ->
     App.testAPI s =
     (Normal tt, {| App.message := "API Connected: " ++ text |}))
  /\
  (ToString (property body "status") = None ->
   App.testAPI s =
   (Normal tt,
    {| App.message :=
         "API Error: " ++ ToPrimitive_message (property body "status") |})).
Proof.
  intros Hf Hj Hn. unfold App.testAPI, App.connected.
  rewrite Hf, Hj, Hn.
  split.
  - intros text Ht. rewrite Ht. reflexivity.
  - intros Ht. rewrite Ht. reflexivity.
Qed.

(** X10.  A failure of [fetch] or of [response.json()] that is not
    [null] or [undefined] is caught, and so is the [TypeError] of reading
    [data.status] when the body parses to [null]: the message becomes
    "API Error: " followed by the failure's [message] property as a
    template literal prints it, and [testAPI] ends normally.  Only when
    printing that property throws does [testAPI] throw, leaving the
    message as it was. *)
Theorem testAPI_reports_failure (s : App.state) (reason : value) :
  App.fetch "http://localhost:8000/health" = App.Failed reason \/
  (exists r : App.response,
     App.fetch "http://localhost:8000/health" = App.Fulfilled r /\
     App.json r = Rejected reason) \/
  (exists (r : App.response) (body : value),
     App.fetch "http://localhost:8000/health" = App.Fulfilled r /\
     App.json r = Resolved body /\
     is_nullish body = true /\
     reason = TypeError "data" body "status") ->
  is_nullish reason = false ->
  App.testAPI s =
  match ToString (property reason "message") with
  | Some text => (Normal tt, {| App.message := "API Error: " ++ text |})
  | None => (Throw (ToPrimitive_TypeError (property reason "message")), s)
  end.
Proof.
  intros [Hf|[(r & Hf & Hj)|(r & body & Hf & Hj & Hb & Hr)]] Hn;
    unfold App.testAPI, App.connected;
    rewrite Hf, ?Hj, ?Hb, <- ?Hr, Hn; reflexivity.
Qed.

(** X11.  Whenever [testAPI] ends normally it leaves a message that is
    not empty, so the page shows the box with it; when it throws, the
    message is left as it was. *)
Theorem testAPI_message_shown (s : App.state) :
  match App.testAPI s with
  | (Normal _, s') =>
      App.message s' <> "" /\
      App.render s' = App.Page (Some (App.message s'))
  | (Throw _, s') => s' = s
  end.
Proof.
  unfold App.testAPI.
  destruct App.connected as [text|error0] eqn:Hc.
  - unfold App.connected in Hc.
    destruct (App.fetch _) as [r|reason]; [|discriminate Hc].
    destruct (App.json r) as [body|reason]; [|discriminate Hc].
    destruct (is_nullish body); [discriminate Hc|].
    destruct (ToString _); [|discriminate Hc].
    inversion Hc; subst text.
    split; [discriminate|reflexivity].
  - destruct (is_nullish error0); [reflexivity|].
    destruct (ToString _); [|reflexivity].
    split; [discriminate|reflexivity].
Qed.

End AppProperties.

Section BoundaryProperties.
Context {build : ErrorBoundary.Build}.

Lemma console_after_catches (failures : list (value * value))
    (c : ErrorBoundary.mounted) :
  ErrorBoundary.console (fold_left ErrorBoundary.catches failures c) =
  (ErrorBoundary.console c
     ++ map (fun f =>
               {| ErrorBoundary.text := "Cave Explorer Error:";
                  ErrorBoundary.arguments := [fst f; snd f] |})
          failures)%list.
Proof.
  revert c. induction failures as [|f rest IH]; intros c; cbn [fold_left map].
  - rewrite app_nil_r. reflexivity.
  - rewrite IH. unfold ErrorBoundary.catches at 1.
    unfold ErrorBoundary.componentDidCatch.
    cbn [ErrorBoundary.console]. rewrite <- app_assoc. reflexivity.
Qed.


(** X13.  Every failure caught is written on the console, once, in the
    order caught, with the failure and the component stack as
    arguments, whatever the build mode. *)
Theorem boundary_logs_every_failure (failures : list (value * value)) :
  ErrorBoundary.console (ErrorBoundary.after_failures failures) =
  map (fun f =>
         {| ErrorBoundary.text := "Cave Explorer Error:";
            ErrorBoundary.arguments := [fst f; snd f] |})
    failures.
Proof.
  unfold ErrorBoundary.after_failures. rewrite console_after_catches.
  reflexivity.
Qed.

End BoundaryProperties.

(** ** Instances of the further properties *)

(** The sample engine prints numbers as engines do: plain digits for the
    safe integers, the shortest digits that read back beyond them, and
    the exponent form from 10^21 on. *)
Example V8_prints_numbers :
  map (@ToString V8)
    [VNumber (Num 42); VNumber (Num (-7)); VNumber (Num (2 ^ 60));
     VNumber (Num (10 ^ 21)); VNumber (Num (2 ^ 70)); VNumber NaN] =
  [Some "42"; Some "-7"; Some "1152921504606847000"; Some "1e+21";
   Some "1.1805916207174113e+21"; Some "NaN"].
Proof. vm_compute. reflexivity. Qed.

Lemma path_operations_requests_witness :
  sent (snd (@getGameState V8 server_starting [VString "abc123"] idle)) =
  [{| method := GET; url := "/game_state/abc123"; data := VUndefined |}] /\
  sent (snd (@getGameState V8 server_starting [VNumber (Num (10 ^ 21))]
               idle)) =
  [{| method := GET; url := "/game_state/1e+21"; data := VUndefined |}] /\
  @endSession V8 server_starting [unprintable] idle =
  (Throw (@ToPrimitive_TypeError V8 unprintable), idle).
Proof.
  split; [|split].
  - exact (proj1 (proj1 (@path_operations_requests V8 server_starting
                           (VString "abc123") [] idle) _ eq_refl)).
  - refine (proj1 (proj1 (@path_operations_requests V8 server_starting
                            (VNumber (Num (10 ^ 21))) [] idle)
                     "1e+21" _)).
    vm_compute. reflexivity.
  - exact (proj2 (proj2 (proj1 (proj2
             (@path_operations_requests V8 server_starting unprintable []
                idle)) eq_refl))).
Defined.

Lemma logging_needs_string_true_witness :
  console (snd (@gameAPI V8 server_starting_flag_boolean StartGame
                  [VString "Ava"] idle)) = console idle.
Proof.
  apply (@logging_needs_string_true V8 server_starting_flag_boolean
           StartGame [VString "Ava"] idle _ _ eq_refl eq_refl).
  discriminate.
Defined.

Lemma apiCall_nullish_rejection_escapes_witness :
  fst (@apiCall V8 rejecting_undefined [] idle) =
    Throw (@TypeError V8 "err" VUndefined "message") /\
  loading (snd (@apiCall V8 rejecting_undefined [] idle)) = false /\
  error (snd (@apiCall V8 rejecting_undefined [] idle)) = VString "".
Proof.
  exact (@apiCall_nullish_rejection_escapes V8 rejecting_undefined []
           idle _ _ eq_refl eq_refl).
Defined.

Lemma nullish_failure_becomes_TypeError_witness :
  fst (@gameAPI V8 transport_failing_null HealthCheck [] idle) =
    Throw (@TypeError V8 "error" VNull "response") /\
  error (snd (@useGameApi V8 transport_failing_null HealthCheck [] idle)) =
    VString "Cannot read properties of null (reading 'response')".
Proof.
  pose proof (@nullish_failure_becomes_TypeError V8 transport_failing_null
                HealthCheck [] idle _ _ eq_refl eq_refl eq_refl)
    as (Hg & _ & _ & He).
  split; [exact Hg|exact He].
Defined.

Lemma testAPI_ignores_http_status_witness :
  @App.testAPI V8 backend_failing App.initial =
    (Normal tt, {| App.message := "API Connected: undefined" |}) /\
  @App.testAPI V8 backend_healthy App.initial =
    (Normal tt, {| App.message := "API Connected: healthy" |}) /\
  @App.testAPI V8 backend_unprintable App.initial =
    (Normal tt,
     {| App.message :=
          "API Error: Cannot convert object to primitive value" |}).
Proof.
  split; [|split].
  - exact (proj1 (@testAPI_ignores_http_status V8 backend_failing
                    App.initial _ _ eq_refl eq_refl eq_refl) _ eq_refl).
  - exact (proj1 (@testAPI_ignores_http_status V8 backend_healthy
                    App.initial _ _ eq_refl eq_refl eq_refl) _ eq_refl).
  - exact (proj2 (@testAPI_ignores_http_status V8 backend_unprintable
                    App.initial _ _ eq_refl eq_refl eq_refl) eq_refl).
Defined.

Lemma testAPI_reports_failure_witness :
  @App.testAPI V8 backend_down App.initial =
    (Normal tt, {| App.message := "API Error: Failed to fetch" |}).
Proof.
  refine (@testAPI_reports_failure V8 backend_down App.initial
            (VObject [("name", VString "TypeError");
                      ("message", VString "Failed to fetch")]) _ eq_refl).
  left. reflexivity.
Defined.

Lemma null_result_iff_error_witness :
  fst (@useGameApi V8 server_refusing TakeTurn
         [VString "abc123"; VString "Ava"; VString "path-2"] idle)
    = Normal VNull /\
  error (snd (@useGameApi V8 server_starting StartGame [VString "Ava"] idle))
    = VString "".
Proof.
  split.
  - exact (proj2 (proj1 (@null_result_iff_error V8 server_refusing TakeTurn
                           [VString "abc123"; VString "Ava"; VString "path-2"]
                           idle)) eq_refl).
  - exact (proj2 (@null_result_iff_error V8 server_starting StartGame
                    [VString "Ava"] idle) eq_refl).
Defined.
